(** * RbfoptUserBlackBox: a black-box function built from user data

    Shallow embedding of [src/rbfopt/rbfopt_user_black_box.py] (class
    [RbfoptUserBlackBox], derived from [RbfoptBlackBox] of
    [src/rbfopt/rbfopt_black_box.py]) and the properties of its
    constructor, getters and evaluation methods.

    Modelling choices, all read off the source:
    - Python exceptions are an [outcome]: a method either returns a value
      or raises; [assert] raises [AssertionError] (assertions enabled, the
      interpreter's default).
    - Sequences handed to the constructor are references into a store of
      arrays ([gmap loc (list scalar)]), because [np.array] copies them and
      the getters hand out the stored reference.  A reference that is not
      bound to a sequence has no [len].
    - The two user callables are opaque: they map a point to an outcome and
      may read and write a [World] of their own.  They hold no reference to
      the adapter object or to its private arrays.
    - A method receives the object through the state it runs in ([self]),
      which it could overwrite; the frame properties show that it does not.
    - [__metaclass__ = ABCMeta] in the base class is an ordinary class
      attribute under Python 3, so the derived class is instantiable; the
      adapter realises the fast path as [evaluate_fast] and
      [has_evaluate_fast]. *)

From Stdlib Require Import ZArith List String.
From stdpp Require Import gmap.

Local Open Scope Z_scope.

(** ** Exceptions and the state-and-exception monad *)

Inductive exn : Type :=
| AssertionError
| NotImplementedError (msg : string)
| TypeError
| UserError (tag : string).

Inductive outcome (A : Type) : Type :=
| Return (a : A)
| Raise (e : exn).

Arguments Return {A} a.
Arguments Raise {A} e.

(** A computation over a state [S] that returns an [A] or raises. *)
Definition M (S A : Type) : Type := S -> outcome A * S.

Definition ret {S A} (a : A) : M S A := fun s => (Return a, s).

Definition raise {S A} (e : exn) : M S A := fun s => (Raise e, s).

Definition bind {S A B} (c : M S A) (k : A -> M S B) : M S B :=
  fun s =>
    match c s with
    | (Return a, s') => k a s'
    | (Raise e, s') => (Raise e, s')
    end.

Declare Scope py_scope.
Delimit Scope py_scope with py.

Notation "x <- c ;; k" := (bind c (fun x => k))
  (at level 100, c at next level, right associativity) : py_scope.
Notation "c ;;; k" := (bind c (fun _ => k))
  (at level 100, right associativity) : py_scope.

(** Python's [assert(c)]. *)
Definition assert {S} (c : bool) : M S unit :=
  if c then ret tt else raise AssertionError.

(** [v is not None] *)
Definition is_not_None {A} (v : option A) : bool :=
  match v with
  | Some _ => true
  | None => false
  end.

(** A call failed when its outcome is an exception. *)
Definition fails {A} (r : outcome A) : Prop :=
  match r with
  | Return _ => False
  | Raise _ => True
  end.

(** ** The store of arrays *)

Definition loc : Type := positive.

Section Adapter.

(** Elements of the bound and index arrays, results of the user
    callables, and the part of the world the callables act on. *)
Variable scalar : Type.
Variable value : Type.
Variable World : Type.

(** [len(a)] on a reference. *)
Definition len (a : loc) : M (gmap loc (list scalar)) Z :=
  fun h =>
    match h !! a with
    | Some xs => (Return (Z.of_nat (length xs)), h)
    | None => (Raise TypeError, h)
    end.

(** [np.array(a)]: a new array holding the elements of [a]. *)
Definition np_array (a : loc) : M (gmap loc (list scalar)) loc :=
  fun h =>
    match h !! a with
    | Some xs => let a' := fresh (dom h) in (Return a', <[a' := xs]> h)
    | None => (Raise TypeError, h)
    end.

(** A user callable: [Callable[1D numpy.ndarray[float]]]. *)
Definition callable : Type := list scalar -> M World value.

(** ** The object *)

Record RbfoptUserBlackBox : Type := {
  dimension : Z;
  var_lower : loc;
  var_upper : loc;
  integer_vars : loc;
  obj_funct : callable;
  obj_funct_fast : option callable
}.

(** [RbfoptUserBlackBox.__init__] *)
Definition __init__ (dimension : Z) (var_lower var_upper integer_vars : loc)
    (obj_funct : callable) (obj_funct_fast : option callable)
  : M (gmap loc (list scalar)) RbfoptUserBlackBox :=
  (n1 <- len var_lower ;;
   assert (n1 =? dimension) ;;;
   n2 <- len var_upper ;;
   assert (n2 =? dimension) ;;;
   n3 <- len integer_vars ;;
   assert (n3 <=? dimension) ;;;
   lo <- np_array var_lower ;;
   up <- np_array var_upper ;;
   iv <- np_array integer_vars ;;
   ret {| dimension := dimension;
          var_lower := lo;
          var_upper := up;
          integer_vars := iv;
          obj_funct := obj_funct;
          obj_funct_fast := obj_funct_fast |})%py.

(** ** Methods *)

(** What a method runs in: the object, the arrays, the callables' world. *)
Record mstate : Type := {
  self : RbfoptUserBlackBox;
  arrays : gmap loc (list scalar);
  world : World
}.

(** [self.f] *)
Definition attr {A} (f : RbfoptUserBlackBox -> A) : M mstate A :=
  fun st => (Return (f (self st)), st).

(** [f(x)] for a user callable [f]. *)
Definition call (f : callable) (x : list scalar) : M mstate value :=
  fun st =>
    let (r, w) := f x (world st) in
    (r, {| self := self st; arrays := arrays st; world := w |}).

Definition get_dimension : M mstate Z := attr dimension.

Definition get_var_lower : M mstate loc := attr var_lower.

Definition get_var_upper : M mstate loc := attr var_upper.

Definition get_integer_vars : M mstate loc := attr integer_vars.

Definition evaluate (x : list scalar) : M mstate value :=
  (d <- attr dimension ;;
   assert (Z.of_nat (length x) =? d) ;;;
   f <- attr obj_funct ;;
   call f x)%py.

Definition evaluate_fast (x : list scalar) : M mstate value :=
  (d <- attr dimension ;;
   assert (Z.of_nat (length x) =? d) ;;;
   g <- attr obj_funct_fast ;;
   match g with
   | None => raise (NotImplementedError "evaluate_fast not available")
   | Some g' => call g' x
   end)%py.

Definition has_evaluate_fast : M mstate bool :=
  (g <- attr obj_funct_fast ;;
   ret (is_not_None g))%py.

(** ** Sequences of calls

    A client issues requests one after the other; a request that raises
    does not stop the client from issuing the next one. *)

Inductive request : Type :=
| GetDimension
| GetVarLower
| GetVarUpper
| GetIntegerVars
| Evaluate (x : list scalar)
| EvaluateFast (x : list scalar)
| HasEvaluateFast.

Inductive reply : Type :=
| RInt (z : Z)
| RRef (a : loc)
| RBool (b : bool)
| RValue (v : value).

Definition invoke (c : request) : M mstate reply :=
  match c with
  | GetDimension => (z <- get_dimension ;; ret (RInt z))%py
  | GetVarLower => (a <- get_var_lower ;; ret (RRef a))%py
  | GetVarUpper => (a <- get_var_upper ;; ret (RRef a))%py
  | GetIntegerVars => (a <- get_integer_vars ;; ret (RRef a))%py
  | Evaluate x => (v <- evaluate x ;; ret (RValue v))%py
  | EvaluateFast x => (v <- evaluate_fast x ;; ret (RValue v))%py
  | HasEvaluateFast => (b <- has_evaluate_fast ;; ret (RBool b))%py
  end.

Fixpoint run (cs : list request) (st : mstate)
  : list (outcome reply) * mstate :=
  match cs with
  | [] => ([], st)
  | c :: cs' =>
      let (r, st1) := invoke c st in
      let (rs, st2) := run cs' st1 in
      (r :: rs, st2)
  end.

(** Two states hold the same object with the same arrays; only the
    callables' world may differ. *)
Definition same_object (st st' : mstate) : Prop :=
  self st' = self st /\ arrays st' = arrays st.

(** The caller overwrites arrays it holds: [a[:] = xs] for each pair. *)
Fixpoint overwrite (ws : list (loc * list scalar))
    (h : gmap loc (list scalar)) : gmap loc (list scalar) :=
  match ws with
  | [] => h
  | (a, xs) :: ws' => overwrite ws' (<[a := xs]> h)
  end.

End Adapter.

Arguments dimension {scalar value World} _.
Arguments var_lower {scalar value World} _.
Arguments var_upper {scalar value World} _.
Arguments integer_vars {scalar value World} _.
Arguments obj_funct {scalar value World} _.
Arguments obj_funct_fast {scalar value World} _.
Arguments self {scalar value World} _.
Arguments arrays {scalar value World} _.
Arguments world {scalar value World} _.
Arguments __init__ {scalar value World}.
Arguments get_dimension {scalar value World}.
Arguments get_var_lower {scalar value World}.
Arguments get_var_upper {scalar value World}.
Arguments get_integer_vars {scalar value World}.
Arguments evaluate {scalar value World}.
Arguments evaluate_fast {scalar value World}.
Arguments has_evaluate_fast {scalar value World}.
Arguments invoke {scalar value World}.
Arguments run {scalar value World}.
Arguments overwrite {scalar}.
Arguments same_object {scalar value World}.
Arguments len {scalar}.
Arguments np_array {scalar}.
Arguments call {scalar value World}.
Arguments attr {scalar value World A}.
Arguments Evaluate {scalar}.
Arguments EvaluateFast {scalar}.
Arguments GetDimension {scalar}.
Arguments GetVarLower {scalar}.
Arguments GetVarUpper {scalar}.
Arguments GetIntegerVars {scalar}.
Arguments HasEvaluateFast {scalar}.
Arguments RInt {value}.
Arguments RRef {value}.
Arguments RBool {value}.
Arguments RValue {value}.

(** ** Stub callables and sample problems

    Integers stand for the numbers; a stub records the point it is given
    in the world and returns a sentinel. *)

Module Sample.

Inductive result : Type :=
| Num (v : Z)
| Triple (v lower upper : Z).

Definition log : Type := list (list Z).

Definition stub_exact : callable Z result log :=
  fun x w => (Return (Num 42), x :: w).

(** A fast stub whose bounds break [lower <= 0 <= upper]. *)
Definition stub_fast : callable Z result log :=
  fun x w => (Return (Triple 7 1 (-1)), x :: w).

(** [var_lower = [-1, -1]], [var_upper = [1, 1]], [integer_vars = []]. *)
Definition heap2 : gmap loc (list Z) :=
  <[3%positive := []]> (<[2%positive := [1; 1]]> (<[1%positive := [-1; -1]]> ∅)).

(** A single empty list, passed for all three arrays. *)
Definition heap0 : gmap loc (list Z) := <[1%positive := []]> ∅.

(** What [__init__] leaves in the store when run on [heap2]. *)
Definition heap2_built : gmap loc (list Z) :=
  <[6%positive := []]>
    (<[5%positive := [1; 1]]> (<[4%positive := [-1; -1]]> heap2)).

(** The object [__init__] builds on [heap2] (for [d = 2]); other values
    of [d] give objects of other dimensions over the same arrays. *)
Definition box (d : Z) (fast : option (callable Z result log))
  : RbfoptUserBlackBox Z result log :=
  {| dimension := d;
     var_lower := 4%positive;
     var_upper := 5%positive;
     integer_vars := 6%positive;
     obj_funct := stub_exact;
     obj_funct_fast := fast |}.

Definition at_box (d : Z) (fast : option (callable Z result log))
  : mstate Z result log :=
  {| self := box d fast; arrays := heap2_built; world := [] |}.

(** The object [__init__] builds on [heap0] with dimension 0. *)
Definition box0 : RbfoptUserBlackBox Z result log :=
  {| dimension := 0;
     var_lower := 2%positive;
     var_upper := 3%positive;
     integer_vars := 4%positive;
     obj_funct := stub_exact;
     obj_funct_fast := None |}.

Definition heap0_built : gmap loc (list Z) :=
  <[4%positive := []]> (<[3%positive := []]> (<[2%positive := []]> heap0)).

End Sample.

(** ** The base class [RbfoptBlackBox]

    [src/rbfopt/rbfopt_black_box.py]: every method body is [pass], so a
    call that reaches one of them returns [None] (here [tt]) and does
    nothing else. *)

Module RbfoptBlackBox.

Section Methods.

Variable scalar : Type.
Variable Self : Type.

Definition get_dimension : M Self unit := ret tt.

Definition get_var_lower : M Self unit := ret tt.

Definition get_var_upper : M Self unit := ret tt.

Definition get_integer_vars : M Self unit := ret tt.

Definition evaluate (x : list scalar) : M Self unit := ret tt.

Definition evaluate_noisy (x : list scalar) : M Self unit := ret tt.

Definition has_evaluate_noisy : M Self unit := ret tt.

End Methods.

End RbfoptBlackBox.

Arguments RbfoptBlackBox.get_dimension {Self}.
Arguments RbfoptBlackBox.get_var_lower {Self}.
Arguments RbfoptBlackBox.get_var_upper {Self}.
Arguments RbfoptBlackBox.get_integer_vars {Self}.
Arguments RbfoptBlackBox.evaluate {scalar Self}.
Arguments RbfoptBlackBox.evaluate_noisy {scalar Self}.
Arguments RbfoptBlackBox.has_evaluate_noisy {Self}.

(** ** Calling an adapter through the names of the base class

    [class RbfoptUserBlackBox(bb.RbfoptBlackBox)]: a method name is looked
    up in the derived class first and in the base class when the derived
    class has no method of that name. *)

Section Contract.

Variable scalar : Type.
Variable value : Type.
Variable World : Type.

(** The seven method names of [RbfoptBlackBox], with their arguments. *)
Inductive contract_call : Type :=
| CallGetDimension
| CallGetVarLower
| CallGetVarUpper
| CallGetIntegerVars
| CallEvaluate (x : list scalar)
| CallEvaluateNoisy (x : list scalar)
| CallHasEvaluateNoisy.

(** The method [RbfoptUserBlackBox] defines under that name, if any: it
    has no [evaluate_noisy] and no [has_evaluate_noisy]. *)
Definition own_method (c : contract_call)
  : option (M (mstate scalar value World) (reply value)) :=
  match c with
  | CallGetDimension => Some (invoke GetDimension)
  | CallGetVarLower => Some (invoke GetVarLower)
  | CallGetVarUpper => Some (invoke GetVarUpper)
  | CallGetIntegerVars => Some (invoke GetIntegerVars)
  | CallEvaluate x => Some (invoke (Evaluate x))
  | CallEvaluateNoisy _ => None
  | CallHasEvaluateNoisy => None
  end.

(** The method of [RbfoptBlackBox] of that name. *)
Definition base_method (c : contract_call)
  : M (mstate scalar value World) unit :=
  match c with
  | CallGetDimension => RbfoptBlackBox.get_dimension
  | CallGetVarLower => RbfoptBlackBox.get_var_lower
  | CallGetVarUpper => RbfoptBlackBox.get_var_upper
  | CallGetIntegerVars => RbfoptBlackBox.get_integer_vars
  | CallEvaluate x => RbfoptBlackBox.evaluate x
  | CallEvaluateNoisy x => RbfoptBlackBox.evaluate_noisy x
  | CallHasEvaluateNoisy => RbfoptBlackBox.has_evaluate_noisy
  end.

(** The call on an adapter instance; [None] is Python's [None]. *)
Definition dispatch (c : contract_call)
  : M (mstate scalar value World) (option (reply value)) :=
  match own_method c with
  | Some m => (r <- m ;; ret (Some r))%py
  | None => (base_method c ;;; ret None)%py
  end.

Fixpoint contract_run (cs : list contract_call)
    (st : mstate scalar value World)
  : list (outcome (option (reply value))) * mstate scalar value World :=
  match cs with
  | [] => ([], st)
  | c :: cs' =>
      let (r, st1) := dispatch c st in
      let (rs, st2) := contract_run cs' st1 in
      (r :: rs, st2)
  end.

(** The requests that may call a user callable. *)
Definition is_evaluation (c : request scalar) : bool :=
  match c with
  | Evaluate _ | EvaluateFast _ => true
  | _ => false
  end.

(** The object with another fast evaluator in its last field. *)
Definition with_fast (g : option (callable scalar value World))
    (st : mstate scalar value World) : mstate scalar value World :=
  {| self := {| dimension := dimension (self st);
                var_lower := var_lower (self st);
                var_upper := var_upper (self st);
                integer_vars := integer_vars (self st);
                obj_funct := obj_funct (self st);
                obj_funct_fast := g |};
     arrays := arrays st;
     world := world st |}.

End Contract.

Arguments CallGetDimension {scalar}.
Arguments CallGetVarLower {scalar}.
Arguments CallGetVarUpper {scalar}.
Arguments CallGetIntegerVars {scalar}.
Arguments CallEvaluate {scalar}.
Arguments CallEvaluateNoisy {scalar}.
Arguments CallHasEvaluateNoisy {scalar}.
Arguments own_method {scalar value World}.
Arguments base_method {scalar value World}.
Arguments dispatch {scalar value World}.
Arguments contract_run {scalar value World}.
Arguments is_evaluation {scalar}.
Arguments with_fast {scalar value World}.

(** ** Further sample problems *)

Module Cases.

Import Sample.

(** A callable that records the point and raises. *)
Definition stub_raising : callable Z result log :=
  fun x w => (Raise (UserError "simulation failed"), x :: w).

(** Lower bounds above the upper bounds, and integer indices that are out
    of range and repeated. *)
Definition heap_odd : gmap loc (list Z) :=
  <[3%positive := [7; 7]]>
    (<[2%positive := [1; 1]]> (<[1%positive := [5; 5]]> ∅)).

(** An adapter of dimension 2 over [heap2_built] with the given exact and
    fast callables. *)
Definition state_with (f : callable Z result log)
    (g : option (callable Z result log)) : mstate Z result log :=
  {| self := {| dimension := 2;
                var_lower := 4%positive;
                var_upper := 5%positive;
                integer_vars := 6%positive;
                obj_funct := f;
                obj_funct_fast := g |};
     arrays := heap2_built;
     world := [] |}.

End Cases.


(** * Properties *)

Section Properties.

Variable scalar : Type.
Variable value : Type.
Variable World : Type.

Implicit Types h : gmap loc (list scalar).
Implicit Types st : mstate scalar value World.
Implicit Types bb : RbfoptUserBlackBox scalar value World.
Implicit Types f : callable scalar value World.
Implicit Types g : option (callable scalar value World).
Implicit Types x xs ys zs : list scalar.
Implicit Types d : Z.
Implicit Types a lo up iv : loc.

(** ** The constructor *)

Lemma len_bound h a xs :
  h !! a = Some xs -> len a h = (Return (Z.of_nat (length xs)), h).
Proof. intros Ha. unfold len. now rewrite Ha. Qed.

Lemma np_array_bound h a xs :
  h !! a = Some xs ->
  np_array a h = (Return (fresh (dom h)), <[fresh (dom h) := xs]> h).
Proof. intros Ha. unfold np_array. now rewrite Ha. Qed.

Lemma fresh_unbound h : h !! fresh (dom h) = None.
Proof. apply not_elem_of_dom, is_fresh. Qed.

Lemma fresh_other h a xs : h !! a = Some xs -> fresh (dom h) <> a.
Proof. intros Ha E. rewrite <- E, fresh_unbound in Ha. discriminate. Qed.

(** The three asserts pass exactly when the lengths fit. *)
Lemma init_asserts d lo up iv f g h xs ys zs :
  h !! lo = Some xs -> h !! up = Some ys -> h !! iv = Some zs ->
  __init__ d lo up iv f g h =
    if (Z.of_nat (length xs) =? d) && (Z.of_nat (length ys) =? d)
       && (Z.of_nat (length zs) <=? d)
    then
      let a1 := fresh (dom h) in
      let h1 := <[a1 := xs]> h in
      let a2 := fresh (dom h1) in
      let h2 := <[a2 := ys]> h1 in
      let a3 := fresh (dom h2) in
      (Return {| dimension := d; var_lower := a1; var_upper := a2;
                 integer_vars := a3; obj_funct := f;
                 obj_funct_fast := g |},
       <[a3 := zs]> h2)
    else (Raise AssertionError, h).
Proof.
  intros Hlo Hup Hiv. unfold __init__, bind.
  rewrite (len_bound _ _ _ Hlo).
  destruct (Z.of_nat (length xs) =? d); simpl; [|reflexivity].
  rewrite (len_bound _ _ _ Hup).
  destruct (Z.of_nat (length ys) =? d); simpl; [|reflexivity].
  rewrite (len_bound _ _ _ Hiv).
  destruct (Z.of_nat (length zs) <=? d); simpl; [|reflexivity].
  rewrite (np_array_bound _ _ _ Hlo).
  assert (Hup1 : <[fresh (dom h) := xs]> h !! up = Some ys).
  { rewrite lookup_insert_ne; [exact Hup | eapply fresh_other; eauto]. }
  rewrite (np_array_bound _ _ _ Hup1).
  assert (Hiv1 : <[fresh (dom h) := xs]> h !! iv = Some zs).
  { rewrite lookup_insert_ne; [exact Hiv | eapply fresh_other; eauto]. }
  assert (Hiv2 : <[fresh (dom (<[fresh (dom h) := xs]> h)) := ys]>
                   (<[fresh (dom h) := xs]> h) !! iv = Some zs).
  { rewrite lookup_insert_ne; [exact Hiv1 | eapply fresh_other; eauto]. }
  rewrite (np_array_bound _ _ _ Hiv2).
  reflexivity.
Qed.

(** A construction that returns was given three sequences whose lengths
    pass the asserts. *)
Lemma init_returns d lo up iv f g h bb h' :
  __init__ d lo up iv f g h = (Return bb, h') ->
  exists xs ys zs,
    (h !! lo = Some xs /\ h !! up = Some ys /\ h !! iv = Some zs) /\
    (Z.of_nat (length xs) = d /\ Z.of_nat (length ys) = d /\
     Z.of_nat (length zs) <= d).
Proof.
  unfold __init__, bind, len. intros H.
  destruct (h !! lo) as [xs|] eqn:Hlo; [|discriminate].
  destruct (Z.of_nat (length xs) =? d) eqn:E1; simpl in H; [|discriminate].
  destruct (h !! up) as [ys|] eqn:Hup; [|discriminate].
  destruct (Z.of_nat (length ys) =? d) eqn:E2; simpl in H; [|discriminate].
  destruct (h !! iv) as [zs|] eqn:Hiv; [|discriminate].
  destruct (Z.of_nat (length zs) <=? d) eqn:E3; simpl in H; [|discriminate].
  exists xs, ys, zs. repeat split; try reflexivity; lia.
Qed.

(** What a construction that returns has built: the fields, the contents
    of the three new arrays, and that they are new and leave the
    caller's arrays as they were. *)
Lemma init_spec d lo up iv f g h bb h' :
  __init__ d lo up iv f g h = (Return bb, h') ->
  exists xs ys zs,
    (h !! lo = Some xs /\ h !! up = Some ys /\ h !! iv = Some zs) /\
    (Z.of_nat (length xs) = d /\ Z.of_nat (length ys) = d /\
     Z.of_nat (length zs) <= d) /\
    (dimension bb = d /\ obj_funct bb = f /\ obj_funct_fast bb = g) /\
    (h' !! var_lower bb = Some xs /\ h' !! var_upper bb = Some ys /\
     h' !! integer_vars bb = Some zs) /\
    (h !! var_lower bb = None /\ h !! var_upper bb = None /\
     h !! integer_vars bb = None).
Proof.
  intros H.
  destruct (init_returns _ _ _ _ _ _ _ _ _ H)
    as (xs & ys & zs & (Hlo & Hup & Hiv) & (L1 & L2 & L3)).
  rewrite (init_asserts d lo up iv f g h xs ys zs Hlo Hup Hiv) in H.
  replace (Z.of_nat (length xs) =? d) with true in H by (symmetry; lia).
  replace (Z.of_nat (length ys) =? d) with true in H by (symmetry; lia).
  replace (Z.of_nat (length zs) <=? d) with true in H by (symmetry; lia).
  simpl in H. injection H as <- <-. simpl.
  set (a1 := fresh (dom h)).
  set (h1 := <[a1 := xs]> h).
  set (a2 := fresh (dom h1)).
  set (h2 := <[a2 := ys]> h1).
  set (a3 := fresh (dom h2)).
  assert (F1 : h !! a1 = None) by apply fresh_unbound.
  assert (F2 : h1 !! a2 = None) by apply fresh_unbound.
  assert (F3 : h2 !! a3 = None) by apply fresh_unbound.
  assert (N12 : a1 <> a2).
  { intros E. subst h1. rewrite <- E, lookup_insert_eq in F2. discriminate. }
  assert (N23 : a2 <> a3).
  { intros E. subst h2. rewrite <- E, lookup_insert_eq in F3. discriminate. }
  assert (N13 : a1 <> a3).
  { intros E. subst h2 h1. rewrite lookup_insert_ne in F3 by exact N23.
    rewrite <- E, lookup_insert_eq in F3. discriminate. }
  exists xs, ys, zs. repeat split; try assumption.
  - subst h2 h1. rewrite !lookup_insert_ne by congruence.
    apply lookup_insert_eq.
  - subst h2. rewrite lookup_insert_ne by congruence. apply lookup_insert_eq.
  - apply lookup_insert_eq.
  - subst h1. rewrite lookup_insert_ne in F2 by exact N12. exact F2.
  - subst h2 h1. rewrite !lookup_insert_ne in F3 by congruence. exact F3.
Qed.

(** Three sequences whose lengths fit are enough for the constructor to
    return. *)
Lemma init_ok d lo up iv f g h xs ys zs :
  h !! lo = Some xs -> h !! up = Some ys -> h !! iv = Some zs ->
  Z.of_nat (length xs) = d -> Z.of_nat (length ys) = d ->
  Z.of_nat (length zs) <= d ->
  exists bb h', __init__ d lo up iv f g h = (Return bb, h').
Proof.
  intros Hlo Hup Hiv L1 L2 L3.
  rewrite (init_asserts d lo up iv f g h xs ys zs Hlo Hup Hiv).
  replace (Z.of_nat (length xs) =? d) with true by (symmetry; lia).
  replace (Z.of_nat (length ys) =? d) with true by (symmetry; lia).
  replace (Z.of_nat (length zs) <=? d) with true by (symmetry; lia).
  simpl. eauto.
Qed.

(** Writes to other arrays are not seen at [a]. *)
Lemma overwrite_lookup_other (ws : list (loc * list scalar)) h a :
  Forall (fun p => fst p <> a) ws -> overwrite ws h !! a = h !! a.
Proof.
  intros Hws. revert h.
  induction Hws as [|[b ys] ws Hb _ IH]; intros h; simpl; [reflexivity|].
  rewrite IH. apply lookup_insert_ne. exact Hb.
Qed.

Lemma overwrite_lookup_unbound (ws : list (loc * list scalar)) h0 h a :
  Forall (fun p => is_Some (h0 !! fst p)) ws -> h0 !! a = None ->
  overwrite ws h !! a = h !! a.
Proof.
  intros Hws Ha. apply overwrite_lookup_other.
  eapply Forall_impl; [exact Hws|].
  intros [b ys] [v Hv] E. simpl in *. subst b. congruence.
Qed.

(** ** The methods, one equation each *)

Lemma evaluate_eq x st :
  evaluate x st =
    if Z.of_nat (length x) =? dimension (self st)
    then call (obj_funct (self st)) x st
    else (Raise AssertionError, st).
Proof.
  unfold evaluate, bind, attr, assert.
  destruct (Z.of_nat (length x) =? dimension (self st)); reflexivity.
Qed.

Lemma evaluate_fast_eq x st :
  evaluate_fast x st =
    if Z.of_nat (length x) =? dimension (self st)
    then match obj_funct_fast (self st) with
         | None =>
             (Raise (NotImplementedError "evaluate_fast not available"), st)
         | Some g' => call g' x st
         end
    else (Raise AssertionError, st).
Proof.
  unfold evaluate_fast, bind, attr, assert.
  destruct (Z.of_nat (length x) =? dimension (self st)); simpl;
    [destruct (obj_funct_fast (self st))|]; reflexivity.
Qed.

Lemma has_evaluate_fast_eq st :
  has_evaluate_fast st = (Return (is_not_None (obj_funct_fast (self st))), st).
Proof. reflexivity. Qed.

Lemma call_eq f x st :
  call f x st =
    (fst (f x (world st)),
     {| self := self st; arrays := arrays st;
        world := snd (f x (world st)) |}).
Proof. unfold call. destruct (f x (world st)); reflexivity. Qed.

(** ** Frame: what a call leaves as it was *)

Lemma same_object_refl st : same_object st st.
Proof. split; reflexivity. Qed.

Lemma same_object_trans st1 st2 st3 :
  same_object st1 st2 -> same_object st2 st3 -> same_object st1 st3.
Proof. intros [A1 B1] [A2 B2]. split; congruence. Qed.

Lemma call_frame f x st : same_object st (snd (call f x st)).
Proof. rewrite call_eq. split; reflexivity. Qed.

Lemma evaluate_frame x st : same_object st (snd (evaluate x st)).
Proof.
  rewrite evaluate_eq.
  destruct (Z.of_nat (length x) =? dimension (self st));
    [apply call_frame | apply same_object_refl].
Qed.

Lemma evaluate_fast_frame x st : same_object st (snd (evaluate_fast x st)).
Proof.
  rewrite evaluate_fast_eq.
  destruct (Z.of_nat (length x) =? dimension (self st));
    [destruct (obj_funct_fast (self st))|];
    first [apply call_frame | apply same_object_refl].
Qed.

Lemma bind_ret_snd {S A B} (c : M S A) (k : A -> B) (s : S) :
  snd (bind c (fun v => ret (k v)) s) = snd (c s).
Proof. unfold bind, ret. destruct (c s) as [[v|e] s']; reflexivity. Qed.

Lemma invoke_frame c st : same_object st (snd (invoke c st)).
Proof.
  destruct c; unfold invoke; rewrite bind_ret_snd;
    first [apply evaluate_frame | apply evaluate_fast_frame
          | apply same_object_refl].
Qed.

Lemma run_frame cs st : same_object st (snd (run cs st)).
Proof.
  revert st. induction cs as [|c cs IH]; intros st; simpl.
  - apply same_object_refl.
  - pose proof (invoke_frame c st) as Hc.
    destruct (invoke c st) as [r st1]. simpl in Hc.
    pose proof (IH st1) as Hcs.
    destruct (run cs st1) as [rs st2]. simpl in *.
    eapply same_object_trans; eassumption.
Qed.

(** ** The evaluation methods *)

(** C1: on an adapter constructed with exact evaluator [f], [evaluate]
    at a point whose length is the dimension returns what [f] returns
    at that point, whatever calls came before (no caching), and its only
    effect is that of [f]. *)
Theorem evaluate_pass_through d lo up iv f g h bb h' st x :
  __init__ d lo up iv f g h = (Return bb, h') ->
  self st = bb ->
  Z.of_nat (length x) = d ->
  evaluate x st =
    (fst (f x (world st)),
     {| self := self st; arrays := arrays st;
        world := snd (f x (world st)) |}).
Proof.
  intros Hinit Hself Hlen.
  destruct (init_spec _ _ _ _ _ _ _ _ _ Hinit)
    as (xs & ys & zs & _ & _ & (Hd & Hf & _) & _).
  rewrite evaluate_eq, Hself, Hd, Hf.
  apply Z.eqb_eq in Hlen. rewrite Hlen. rewrite call_eq, Hself.
  reflexivity.
Qed.

(** C2 (as the code has it): on an adapter constructed without a fast
    evaluator, [evaluate_fast] always fails, and the length is checked
    first: a point whose length is the dimension gets the
    capability-not-available error, any other point gets the assertion
    error of the length check. *)
Theorem evaluate_fast_without_fast_evaluator d lo up iv f h bb h' st x :
  __init__ d lo up iv f None h = (Return bb, h') ->
  self st = bb ->
  evaluate_fast x st =
    (Raise (if Z.of_nat (length x) =? d
            then NotImplementedError "evaluate_fast not available"
            else AssertionError),
     st).
Proof.
  intros Hinit Hself.
  destruct (init_spec _ _ _ _ _ _ _ _ _ Hinit)
    as (xs & ys & zs & _ & _ & (Hd & _ & Hg) & _).
  rewrite evaluate_fast_eq, Hself, Hd, Hg.
  destruct (Z.of_nat (length x) =? d); reflexivity.
Qed.

(** C3: [has_evaluate_fast] returns a boolean that is true exactly when
    a fast evaluator was given to the constructor; it leaves the state
    as it was, and gives the same answer after any sequence of calls. *)
Theorem has_evaluate_fast_iff_supplied d lo up iv f g h bb h' w cs :
  __init__ d lo up iv f g h = (Return bb, h') ->
  let st := snd (run cs {| self := bb; arrays := h'; world := w |}) in
  exists b : bool,
    has_evaluate_fast st = (Return b, st) /\
    (b = true <-> g <> None) /\
    b = is_not_None g.
Proof.
  intros Hinit st.
  destruct (init_spec _ _ _ _ _ _ _ _ _ Hinit)
    as (xs & ys & zs & _ & _ & (_ & _ & Hg) & _).
  destruct (run_frame cs {| self := bb; arrays := h'; world := w |})
    as [Hself _].
  fold st in Hself. simpl in Hself.
  exists (is_not_None g). rewrite has_evaluate_fast_eq, Hself, Hg.
  split; [reflexivity|]. split; [|reflexivity].
  destruct g; simpl; split; congruence.
Qed.

(** C4: when the lower bounds or the upper bounds do not have
    [dimension] elements, or there are more integer indices than
    [dimension], the constructor raises [AssertionError]: no object is
    returned, and nothing was allocated. *)
Theorem init_rejects_bad_lengths d lo up iv f g h xs ys zs :
  h !! lo = Some xs -> h !! up = Some ys -> h !! iv = Some zs ->
  Z.of_nat (length xs) <> d \/ Z.of_nat (length ys) <> d \/
    Z.of_nat (length zs) > d ->
  __init__ d lo up iv f g h = (Raise AssertionError, h).
Proof.
  intros Hlo Hup Hiv Hbad.
  rewrite (init_asserts d lo up iv f g h xs ys zs Hlo Hup Hiv).
  destruct (Z.eqb_spec (Z.of_nat (length xs)) d); simpl; [|reflexivity].
  destruct (Z.eqb_spec (Z.of_nat (length ys)) d); simpl; [|reflexivity].
  destruct (Z.leb_spec (Z.of_nat (length zs)) d); simpl; [|reflexivity].
  lia.
Qed.

(** C5: whatever the object and its dimension, [evaluate] at a point
    whose length is not the dimension raises; the exact evaluator is not
    called and nothing changes. *)
Theorem evaluate_rejects_wrong_length st x :
  Z.of_nat (length x) <> dimension (self st) ->
  evaluate x st = (Raise AssertionError, st) /\
  fails (fst (evaluate x st)).
Proof.
  intros Hlen. rewrite evaluate_eq.
  apply Z.eqb_neq in Hlen. rewrite Hlen. split; [reflexivity | exact I].
Qed.

(** C6: on an adapter constructed with fast evaluator [fast],
    [evaluate_fast] at a point whose length is the dimension returns
    what [fast] returns at that point, whatever that is: the result is not
    inspected. *)
Theorem evaluate_fast_pass_through d lo up iv f
    (fast : callable scalar value World) h bb h' st x :
  __init__ d lo up iv f (Some fast) h = (Return bb, h') ->
  self st = bb ->
  Z.of_nat (length x) = d ->
  evaluate_fast x st =
    (fst (fast x (world st)),
     {| self := self st; arrays := arrays st;
        world := snd (fast x (world st)) |}).
Proof.
  intros Hinit Hself Hlen.
  destruct (init_spec _ _ _ _ _ _ _ _ _ Hinit)
    as (xs & ys & zs & _ & _ & (Hd & _ & Hg) & _).
  rewrite evaluate_fast_eq, Hself, Hd, Hg.
  apply Z.eqb_eq in Hlen. rewrite Hlen. rewrite call_eq, Hself.
  reflexivity.
Qed.

(** ** The getters *)

(** C7: after a construction that returns, [get_dimension] returns the
    dimension given to the constructor, and the arrays returned by
    [get_var_lower] and [get_var_upper] have that many elements. *)
Theorem getters_after_construction d lo up iv f g h bb h' w :
  __init__ d lo up iv f g h = (Return bb, h') ->
  let st := {| self := bb; arrays := h'; world := w |} in
  get_dimension st = (Return d, st) /\
  exists a1 a2 xs ys,
    get_var_lower st = (Return a1, st) /\
    get_var_upper st = (Return a2, st) /\
    arrays st !! a1 = Some xs /\ arrays st !! a2 = Some ys /\
    Z.of_nat (length xs) = d /\ Z.of_nat (length ys) = d.
Proof.
  intros Hinit st.
  destruct (init_spec _ _ _ _ _ _ _ _ _ Hinit)
    as (xs & ys & zs & _ & (L1 & L2 & _) & (Hd & _ & _) & (G1 & G2 & _) & _).
  split.
  - unfold get_dimension, attr. simpl. now rewrite Hd.
  - exists (var_lower bb), (var_upper bb), xs, ys. repeat split; assumption.
Qed.

(** C8: after any sequence of calls to the getters, [evaluate],
    [evaluate_fast] and [has_evaluate_fast], failing or not, every field
    of the object (dimension, the three array references, the two
    evaluator references) and the arrays in the store are what they were
    before. *)
Theorem calls_leave_object_unchanged cs st :
  let st' := snd (run cs st) in
  (dimension (self st') = dimension (self st) /\
   var_lower (self st') = var_lower (self st) /\
   var_upper (self st') = var_upper (self st) /\
   integer_vars (self st') = integer_vars (self st) /\
   obj_funct (self st') = obj_funct (self st) /\
   obj_funct_fast (self st') = obj_funct_fast (self st)) /\
  self st' = self st /\
  arrays st' = arrays st.
Proof.
  intros st'. destruct (run_frame cs st) as [Hself Harr]. fold st' in Hself, Harr.
  rewrite Hself. repeat split; assumption.
Qed.

(** C9: the constructor stores copies: the getters return new arrays
    with the elements the caller's arrays had at construction, and
    overwriting arrays the caller held then does not change what the
    getters' arrays contain. *)
Theorem constructor_copies_arrays d lo up iv f g h bb h' w
    (ws : list (loc * list scalar)) :
  __init__ d lo up iv f g h = (Return bb, h') ->
  Forall (fun p => is_Some (h !! fst p)) ws ->
  let st := {| self := bb; arrays := overwrite ws h'; world := w |} in
  exists a1 a2 a3,
    (get_var_lower st = (Return a1, st) /\
     get_var_upper st = (Return a2, st) /\
     get_integer_vars st = (Return a3, st)) /\
    (is_Some (h !! lo) /\ is_Some (h !! up) /\ is_Some (h !! iv)) /\
    (arrays st !! a1 = h !! lo /\ arrays st !! a2 = h !! up /\
     arrays st !! a3 = h !! iv) /\
    (a1 <> lo /\ a2 <> up /\ a3 <> iv).
Proof.
  intros Hinit Hws st.
  destruct (init_spec _ _ _ _ _ _ _ _ _ Hinit)
    as (xs & ys & zs & (Hlo & Hup & Hiv) & _ & _ & (G1 & G2 & G3)
        & (F1 & F2 & F3)).
  exists (var_lower bb), (var_upper bb), (integer_vars bb).
  split; [repeat split|]. split; [rewrite Hlo, Hup, Hiv; eauto|].
  split; [|repeat split; congruence].
  subst st; simpl.
  rewrite !(overwrite_lookup_unbound ws h h') by assumption.
  rewrite Hlo, Hup, Hiv. repeat split; assumption.
Qed.

(** C10: the constructor does not ask for a positive dimension: with a
    dimension that is not positive, bound arrays of that length and at
    most that many integer indices, it returns an object whose
    [get_dimension] is that value. *)
Theorem init_accepts_nonpositive_dimension d lo up iv f g h xs ys zs w :
  d <= 0 ->
  h !! lo = Some xs -> h !! up = Some ys -> h !! iv = Some zs ->
  Z.of_nat (length xs) = d -> Z.of_nat (length ys) = d ->
  Z.of_nat (length zs) <= d ->
  exists bb h',
    __init__ d lo up iv f g h = (Return bb, h') /\
    get_dimension {| self := bb; arrays := h'; world := w |} =
      (Return d, {| self := bb; arrays := h'; world := w |}).
Proof.
  intros _ Hlo Hup Hiv L1 L2 L3.
  destruct (init_ok d lo up iv f g h xs ys zs Hlo Hup Hiv L1 L2 L3)
    as (bb & h' & Hinit).
  exists bb, h'. split; [exact Hinit|].
  destruct (init_spec _ _ _ _ _ _ _ _ _ Hinit)
    as (_ & _ & _ & _ & _ & (Hd & _ & _) & _).
  unfold get_dimension, attr. simpl. now rewrite Hd.
Qed.

(** Only 0 meets the conditions of the previous theorem: a sequence has
    no negative length, so a negative dimension is always refused. *)
Lemma init_refuses_negative_dimension d lo up iv f g h xs ys zs :
  d < 0 ->
  h !! lo = Some xs -> h !! up = Some ys -> h !! iv = Some zs ->
  __init__ d lo up iv f g h = (Raise AssertionError, h).
Proof.
  intros Hd Hlo Hup Hiv.
  rewrite (init_asserts d lo up iv f g h xs ys zs Hlo Hup Hiv).
  destruct (Z.eqb_spec (Z.of_nat (length xs)) d); [lia | reflexivity].
Qed.

End Properties.

(** * The properties on the sample problems *)

Import Sample.

(** [box 2 fast] and [heap2_built] are what the constructor produces. *)
Example box_constructed fast :
  __init__ 2 1%positive 2%positive 3%positive stub_exact fast heap2 =
    (Return (box 2 fast), heap2_built).
Proof. reflexivity. Qed.

Example box0_constructed :
  __init__ 0 1%positive 1%positive 1%positive stub_exact None heap0 =
    (Return box0, heap0_built).
Proof. reflexivity. Qed.

Lemma evaluate_pass_through_witness :
  evaluate [3; 4] (at_box 2 None) =
    (Return (Num 42),
     {| self := box 2 None; arrays := heap2_built; world := [[3; 4]] |}).
Proof.
  apply (evaluate_pass_through Z result log 2 1%positive 2%positive 3%positive
           stub_exact None heap2 (box 2 None) heap2_built (at_box 2 None)
           [3; 4]); reflexivity.
Defined.

(** C2 as stated fails: the adapter built on [heap2] without a fast
    evaluator has dimension 2, and [evaluate_fast] at a point of length 1
    raises the assertion error of the length check, not the
    capability-not-available error. *)
Lemma evaluate_fast_checks_length_first :
  __init__ 2 1%positive 2%positive 3%positive stub_exact None heap2 =
    (Return (box 2 None), heap2_built) /\
  obj_funct_fast (self (at_box 2 None)) = None /\
  Z.of_nat (length [5]) <> dimension (self (at_box 2 None)) /\
  evaluate_fast [5] (at_box 2 None) = (Raise AssertionError, at_box 2 None) /\
  (forall msg,
     fst (evaluate_fast [5] (at_box 2 None)) <> Raise (NotImplementedError msg)).
Proof.
  split; [reflexivity|]. split; [reflexivity|]. split; [discriminate|].
  split; [reflexivity|]. intros msg. discriminate.
Qed.

Lemma evaluate_fast_without_fast_evaluator_witness :
  evaluate_fast [3; 4] (at_box 2 None) =
    (Raise (NotImplementedError "evaluate_fast not available"), at_box 2 None) /\
  evaluate_fast [3] (at_box 2 None) = (Raise AssertionError, at_box 2 None).
Proof.
  split.
  - apply (evaluate_fast_without_fast_evaluator Z result log 2 1%positive
             2%positive 3%positive stub_exact heap2 (box 2 None) heap2_built
             (at_box 2 None) [3; 4]); reflexivity.
  - apply (evaluate_fast_without_fast_evaluator Z result log 2 1%positive
             2%positive 3%positive stub_exact heap2 (box 2 None) heap2_built
             (at_box 2 None) [3]); reflexivity.
Defined.

Lemma has_evaluate_fast_iff_supplied_witness :
  let st :=
    snd (run [Evaluate [3; 4]; EvaluateFast [1]; HasEvaluateFast;
              EvaluateFast [0; 0]]
           {| self := box 2 (Some stub_fast); arrays := heap2_built;
              world := [] |}) in
  exists b : bool,
    has_evaluate_fast st = (Return b, st) /\
    (b = true <-> Some stub_fast <> None) /\
    b = is_not_None (Some stub_fast).
Proof.
  apply (has_evaluate_fast_iff_supplied Z result log 2 1%positive 2%positive
           3%positive stub_exact (Some stub_fast) heap2); reflexivity.
Defined.

Lemma init_rejects_bad_lengths_witness :
  __init__ 3 1%positive 2%positive 3%positive stub_exact None heap2 =
    (Raise AssertionError, heap2) /\
  __init__ 0 2%positive 3%positive 1%positive stub_exact None heap2 =
    (Raise AssertionError, heap2).
Proof.
  split.
  - apply (init_rejects_bad_lengths Z result log 3 1%positive 2%positive
             3%positive stub_exact None heap2 [-1; -1] [1; 1] []);
      [reflexivity | reflexivity | reflexivity | left; discriminate].
  - apply (init_rejects_bad_lengths Z result log 0 2%positive 3%positive
             1%positive stub_exact None heap2 [1; 1] [] [-1; -1]);
      [reflexivity | reflexivity | reflexivity | right; right; reflexivity].
Defined.

Lemma evaluate_rejects_wrong_length_witness :
  (evaluate [9] (at_box 0 None) = (Raise AssertionError, at_box 0 None) /\
   fails (fst (evaluate [9] (at_box 0 None)))) /\
  (evaluate [] (at_box 1 None) = (Raise AssertionError, at_box 1 None) /\
   fails (fst (evaluate [] (at_box 1 None)))) /\
  (evaluate [1; 2; 3; 4] (at_box 5 None) =
     (Raise AssertionError, at_box 5 None) /\
   fails (fst (evaluate [1; 2; 3; 4] (at_box 5 None)))).
Proof.
  split; [|split].
  - apply (evaluate_rejects_wrong_length Z result log (at_box 0 None) [9]).
    discriminate.
  - apply (evaluate_rejects_wrong_length Z result log (at_box 1 None) []).
    discriminate.
  - apply (evaluate_rejects_wrong_length Z result log (at_box 5 None)
             [1; 2; 3; 4]).
    discriminate.
Defined.

(** The fast stub's triple has [lower = 1 > 0] and [upper = -1 < 0]; it
    comes back as it is. *)
Lemma evaluate_fast_pass_through_witness :
  evaluate_fast [3; 4] (at_box 2 (Some stub_fast)) =
    (Return (Triple 7 1 (-1)),
     {| self := box 2 (Some stub_fast); arrays := heap2_built;
        world := [[3; 4]] |}).
Proof.
  apply (evaluate_fast_pass_through Z result log 2 1%positive 2%positive
           3%positive stub_exact stub_fast heap2 (box 2 (Some stub_fast))
           heap2_built (at_box 2 (Some stub_fast)) [3; 4]); reflexivity.
Defined.

Lemma getters_after_construction_witness :
  let st := at_box 2 None in
  get_dimension st = (Return 2, st) /\
  exists a1 a2 xs ys,
    get_var_lower st = (Return a1, st) /\
    get_var_upper st = (Return a2, st) /\
    arrays st !! a1 = Some xs /\ arrays st !! a2 = Some ys /\
    Z.of_nat (length xs) = 2 /\ Z.of_nat (length ys) = 2.
Proof.
  apply (getters_after_construction Z result log 2 1%positive 2%positive
           3%positive stub_exact None heap2 (box 2 None) heap2_built []).
  reflexivity.
Defined.

(** The caller overwrites its lower bounds and empties its upper bounds
    after construction. *)
Lemma constructor_copies_arrays_witness :
  let st :=
    {| self := box 2 None;
       arrays := overwrite [(1%positive, [100; 100]); (2%positive, [])]
                   heap2_built;
       world := ([] : log) |} in
  exists a1 a2 a3,
    (get_var_lower st = (Return a1, st) /\
     get_var_upper st = (Return a2, st) /\
     get_integer_vars st = (Return a3, st)) /\
    (is_Some (heap2 !! 1%positive) /\ is_Some (heap2 !! 2%positive) /\
     is_Some (heap2 !! 3%positive)) /\
    (arrays st !! a1 = heap2 !! 1%positive /\
     arrays st !! a2 = heap2 !! 2%positive /\
     arrays st !! a3 = heap2 !! 3%positive) /\
    (a1 <> 1%positive /\ a2 <> 2%positive /\ a3 <> 3%positive).
Proof.
  apply (constructor_copies_arrays Z result log 2 1%positive 2%positive
           3%positive stub_exact None heap2 (box 2 None) heap2_built []
           [(1%positive, [100; 100]); (2%positive, [])]).
  - reflexivity.
  - repeat constructor; simpl; eexists; reflexivity.
Defined.

Lemma init_accepts_nonpositive_dimension_witness :
  exists bb h',
    __init__ 0 1%positive 1%positive 1%positive stub_exact None heap0 =
      (Return bb, h') /\
    get_dimension {| self := bb; arrays := h'; world := ([] : log) |} =
      (Return 0, {| self := bb; arrays := h'; world := [] |}).
Proof.
  apply (init_accepts_nonpositive_dimension Z result log 0 1%positive
           1%positive 1%positive stub_exact None heap0 [] [] [] []);
    first [reflexivity | discriminate].
Defined.

(** * Further properties of the constructor, the methods and the base
      class *)

Section MoreProperties.

Variable scalar : Type.
Variable value : Type.
Variable World : Type.

Implicit Types h : gmap loc (list scalar).
Implicit Types st : mstate scalar value World.
Implicit Types bb : RbfoptUserBlackBox scalar value World.
Implicit Types f : callable scalar value World.
Implicit Types g : option (callable scalar value World).
Implicit Types x xs ys zs : list scalar.
Implicit Types d : Z.
Implicit Types a lo up iv : loc.

(** ** The constructor and the store *)

(** The store a construction that returns leaves behind. *)
Lemma init_store d lo up iv f g h bb h' :
  __init__ d lo up iv f g h = (Return bb, h') ->
  exists xs ys zs,
    (h !! lo = Some xs /\ h !! up = Some ys /\ h !! iv = Some zs) /\
    h' = <[integer_vars bb := zs]>
           (<[var_upper bb := ys]> (<[var_lower bb := xs]> h)) /\
    (h !! var_lower bb = None /\ h !! var_upper bb = None /\
     h !! integer_vars bb = None) /\
    (var_lower bb <> var_upper bb /\ var_lower bb <> integer_vars bb /\
     var_upper bb <> integer_vars bb).
Proof.
  intros H.
  destruct (init_spec _ _ _ _ _ _ _ _ _ _ _ _ H)
    as (xs & ys & zs & (Hlo & Hup & Hiv) & (L1 & L2 & L3) & _ & _
        & (F1 & F2 & F3)).
  rewrite (init_asserts _ _ _ d lo up iv f g h xs ys zs Hlo Hup Hiv) in H.
  replace (Z.of_nat (length xs) =? d) with true in H by (symmetry; lia).
  replace (Z.of_nat (length ys) =? d) with true in H by (symmetry; lia).
  replace (Z.of_nat (length zs) <=? d) with true in H by (symmetry; lia).
  simpl in H. injection H as <- <-. simpl in *.
  exists xs, ys, zs. split; [auto|]. split; [reflexivity|]. split; [auto|].
  set (a1 := fresh (dom h)) in *.
  set (h1 := <[a1 := xs]> h) in *.
  set (a2 := fresh (dom h1)) in *.
  set (h2 := <[a2 := ys]> h1) in *.
  set (a3 := fresh (dom h2)) in *.
  assert (G2 : h1 !! a2 = None) by apply fresh_unbound.
  assert (G3 : h2 !! a3 = None) by apply fresh_unbound.
  assert (N12 : a1 <> a2).
  { intros E. subst h1. rewrite <- E, lookup_insert_eq in G2. discriminate. }
  assert (N23 : a2 <> a3).
  { intros E. subst h2. rewrite <- E, lookup_insert_eq in G3. discriminate. }
  assert (N13 : a1 <> a3).
  { intros E. subst h2 h1. rewrite lookup_insert_ne in G3 by exact N23.
    rewrite <- E, lookup_insert_eq in G3. discriminate. }
  auto.
Qed.

(** X1: given three sequences, whatever they contain, the constructor
    returns an object exactly when both bound arrays have [dimension]
    elements and there are at most [dimension] integer indices; otherwise
    it raises [AssertionError] and leaves the store as it is. *)
Theorem init_returns_iff_lengths_fit d lo up iv f g h xs ys zs :
  h !! lo = Some xs -> h !! up = Some ys -> h !! iv = Some zs ->
  let fit := Z.of_nat (length xs) = d /\ Z.of_nat (length ys) = d /\
             Z.of_nat (length zs) <= d in
  (fit <-> exists bb h', __init__ d lo up iv f g h = (Return bb, h')) /\
  (~ fit <-> __init__ d lo up iv f g h = (Raise AssertionError, h)).
Proof.
  intros Hlo Hup Hiv fit. subst fit.
  rewrite (init_asserts _ _ _ d lo up iv f g h xs ys zs Hlo Hup Hiv).
  destruct (Z.eqb_spec (Z.of_nat (length xs)) d) as [E1|E1]; simpl.
  2:{ split; split; try reflexivity; try tauto.
      intros (bb & h' & H). discriminate. }
  destruct (Z.eqb_spec (Z.of_nat (length ys)) d) as [E2|E2]; simpl.
  2:{ split; split; try reflexivity; try tauto.
      intros (bb & h' & H). discriminate. }
  destruct (Z.leb_spec (Z.of_nat (length zs)) d) as [E3|E3]; simpl.
  2:{ split; split; try reflexivity; try lia.
      intros (bb & h' & H). discriminate. }
  split; split; try tauto.
  - intros _. eauto.
  - intros H. discriminate.
Qed.

(** X2: a construction that returns changes no array that was in the
    store: it adds exactly three arrays, new and different from each
    other, and every other reference reads as before. *)
Theorem init_allocates_three_arrays d lo up iv f g h bb h' :
  __init__ d lo up iv f g h = (Return bb, h') ->
  (forall a, a <> var_lower bb -> a <> var_upper bb ->
             a <> integer_vars bb -> h' !! a = h !! a) /\
  (forall a, is_Some (h !! a) -> h' !! a = h !! a) /\
  (h !! var_lower bb = None /\ h !! var_upper bb = None /\
   h !! integer_vars bb = None) /\
  (is_Some (h' !! var_lower bb) /\ is_Some (h' !! var_upper bb) /\
   is_Some (h' !! integer_vars bb)) /\
  (var_lower bb <> var_upper bb /\ var_lower bb <> integer_vars bb /\
   var_upper bb <> integer_vars bb).
Proof.
  intros H.
  destruct (init_store _ _ _ _ _ _ _ _ _ H)
    as (xs & ys & zs & _ & -> & (F1 & F2 & F3) & (N12 & N13 & N23)).
  assert (Hother : forall a, a <> var_lower bb -> a <> var_upper bb ->
                     a <> integer_vars bb ->
                     <[integer_vars bb := zs]>
                       (<[var_upper bb := ys]> (<[var_lower bb := xs]> h))
                       !! a = h !! a).
  { intros a A1 A2 A3. rewrite !lookup_insert_ne by congruence. reflexivity. }
  split; [exact Hother|]. split.
  - intros a [v Hv]. apply Hother; intros E; subst a; congruence.
  - split; [auto|]. split; [|auto].
    repeat split.
    + rewrite !lookup_insert_ne by congruence. rewrite lookup_insert_eq. eauto.
    + rewrite lookup_insert_ne by congruence. rewrite lookup_insert_eq. eauto.
    + rewrite lookup_insert_eq. eauto.
Qed.

(** X3: the lengths the constructor checked stay true of the object: after
    a construction that returns and any sequence of calls, the arrays
    behind [get_var_lower] and [get_var_upper] have [get_dimension]
    elements, the one behind [get_integer_vars] has at most that many,
    and [get_dimension] is the value given and is not negative. *)
Theorem lengths_hold_after_calls d lo up iv f g h bb h' w cs :
  __init__ d lo up iv f g h = (Return bb, h') ->
  let st := snd (run cs {| self := bb; arrays := h'; world := w |}) in
  exists a1 a2 a3 xs ys zs,
    (get_dimension st = (Return d, st) /\ 0 <= d) /\
    (get_var_lower st = (Return a1, st) /\
     get_var_upper st = (Return a2, st) /\
     get_integer_vars st = (Return a3, st)) /\
    (arrays st !! a1 = Some xs /\ arrays st !! a2 = Some ys /\
     arrays st !! a3 = Some zs) /\
    (Z.of_nat (length xs) = d /\ Z.of_nat (length ys) = d /\
     Z.of_nat (length zs) <= d).
Proof.
  intros H st.
  destruct (init_spec _ _ _ _ _ _ _ _ _ _ _ _ H)
    as (xs & ys & zs & _ & (L1 & L2 & L3) & (Hd & _ & _) & (G1 & G2 & G3)
        & _).
  destruct (run_frame _ _ _ cs {| self := bb; arrays := h'; world := w |})
    as [Hself Harr].
  fold st in Hself, Harr. simpl in Hself, Harr.
  exists (var_lower bb), (var_upper bb), (integer_vars bb), xs, ys, zs.
  unfold get_dimension, get_var_lower, get_var_upper, get_integer_vars, attr.
  rewrite Hself, Harr, Hd.
  repeat split; try assumption. lia.
Qed.

(** X4: the getters hand out the stored arrays themselves, and the three
    are separate objects even when the caller passed one list for all
    three: a write into the array [get_var_lower] returned is seen by the
    next [get_var_lower], while the arrays behind [get_var_upper] and
    [get_integer_vars] and the caller's own arrays keep their elements. *)
Theorem write_through_getter d lo up iv f g h bb h' w xs' :
  __init__ d lo up iv f g h = (Return bb, h') ->
  exists a1 a2 a3,
    get_var_lower {| self := bb; arrays := h'; world := w |} =
      (Return a1, {| self := bb; arrays := h'; world := w |}) /\
    let st := {| self := bb; arrays := overwrite [(a1, xs')] h';
                 world := w |} in
    (get_var_lower st = (Return a1, st) /\
     get_var_upper st = (Return a2, st) /\
     get_integer_vars st = (Return a3, st)) /\
    arrays st !! a1 = Some xs' /\
    (arrays st !! a2 = h !! up /\ arrays st !! a3 = h !! iv) /\
    (arrays st !! lo = h !! lo /\ arrays st !! up = h !! up /\
     arrays st !! iv = h !! iv).
Proof.
  intros H.
  destruct (init_spec _ _ _ _ _ _ _ _ _ _ _ _ H)
    as (xs & ys & zs & (Hlo & Hup & Hiv) & _ & _ & (G1 & G2 & G3) & _).
  destruct (init_store _ _ _ _ _ _ _ _ _ H)
    as (xs0 & ys0 & zs0 & _ & Hh' & (F1 & F2 & F3) & (N12 & N13 & N23)).
  exists (var_lower bb), (var_upper bb), (integer_vars bb).
  split; [reflexivity|]. simpl.
  split; [repeat split|]. split; [apply lookup_insert_eq|].
  assert (Hold : forall a, is_Some (h !! a) ->
                   <[var_lower bb := xs']> h' !! a = h !! a).
  { intros a [v Hv]. rewrite lookup_insert_ne by congruence.
    subst h'. rewrite !lookup_insert_ne by congruence. reflexivity. }
  split.
  - rewrite !lookup_insert_ne by congruence. rewrite G2, G3, Hup, Hiv. auto.
  - repeat split; apply Hold; eauto.
Qed.

(** ** The evaluation methods *)

(** X5: [evaluate_fast] checks the length before anything else: at a
    point whose length is not the dimension it raises [AssertionError]
    whether or not there is a fast evaluator, and calls nothing. *)
Theorem evaluate_fast_rejects_wrong_length st x :
  Z.of_nat (length x) <> dimension (self st) ->
  evaluate_fast x st = (Raise AssertionError, st).
Proof.
  intros Hlen. rewrite evaluate_fast_eq.
  apply Z.eqb_neq in Hlen. rewrite Hlen. reflexivity.
Qed.

(** X6: the flag and the fast path agree.  Either [has_evaluate_fast]
    returns [False] and every [evaluate_fast] raises without calling
    anything, or it returns [True] and [evaluate_fast] at every point of
    the right length is one call of the stored fast evaluator. *)
Theorem flag_agrees_with_fast_path st :
  (has_evaluate_fast st = (Return false, st) /\
   forall x, fails (fst (evaluate_fast x st)) /\
             snd (evaluate_fast x st) = st) \/
  (has_evaluate_fast st = (Return true, st) /\
   exists fast : callable scalar value World,
     obj_funct_fast (self st) = Some fast /\
     forall x, Z.of_nat (length x) = dimension (self st) ->
       evaluate_fast x st =
         (fst (fast x (world st)),
          {| self := self st; arrays := arrays st;
             world := snd (fast x (world st)) |})).
Proof.
  rewrite has_evaluate_fast_eq.
  destruct (obj_funct_fast (self st)) as [fast|] eqn:Hg; simpl.
  - right. split; [reflexivity|]. exists fast. split; [reflexivity|].
    intros x Hlen. rewrite evaluate_fast_eq, Hg.
    apply Z.eqb_eq in Hlen. rewrite Hlen. apply call_eq.
  - left. split; [reflexivity|]. intros x.
    rewrite evaluate_fast_eq, Hg.
    destruct (Z.of_nat (length x) =? dimension (self st)); simpl; auto.
Qed.


(** X11: the evaluation methods look at the length of the point and at
    nothing else: the bound and index arrays are not consulted, so a
    point outside the bounds, or fractional at an integer index, is
    evaluated like any other.  Two states with the same object and world
    give the same outcome and the same world, whatever their arrays
    hold. *)
Theorem evaluation_ignores_arrays st1 st2 x :
  self st1 = self st2 -> world st1 = world st2 ->
  (fst (evaluate x st1) = fst (evaluate x st2) /\
   world (snd (evaluate x st1)) = world (snd (evaluate x st2))) /\
  (fst (evaluate_fast x st1) = fst (evaluate_fast x st2) /\
   world (snd (evaluate_fast x st1)) = world (snd (evaluate_fast x st2))).
Proof.
  intros Hself Hworld.
  rewrite !evaluate_eq, !evaluate_fast_eq, Hself.
  destruct (Z.of_nat (length x) =? dimension (self st2)); simpl.
  - rewrite !call_eq, Hworld. simpl.
    destruct (obj_funct_fast (self st2)) as [fast|]; simpl.
    + rewrite !call_eq, Hworld. auto.
    + auto.
  - auto.
Qed.

(** ** Sequences of calls *)

Lemma invoke_query (c : request scalar) st :
  is_evaluation c = false ->
  exists r : reply value, invoke c st = (Return r, st).
Proof. destruct c; intros E; try discriminate; eexists; reflexivity. Qed.

(** X8: the getters and [has_evaluate_fast] are pure queries: taking them
    out of a sequence of calls changes neither the state the sequence
    ends in nor the replies to the evaluation calls that remain. *)
Theorem queries_can_be_dropped (cs : list (request scalar)) st :
  snd (run cs st) = snd (run (List.filter is_evaluation cs) st) /\
  map snd (List.filter (fun p => is_evaluation (fst p))
             (combine cs (fst (run cs st)))) =
    fst (run (List.filter is_evaluation cs) st).
Proof.
  revert st. induction cs as [|c cs IH]; intros st; [split; reflexivity|].
  simpl. destruct (is_evaluation c) eqn:E.
  - simpl. destruct (invoke c st) as [r st1].
    destruct (IH st1) as [IH1 IH2].
    destruct (run cs st1) as [rs st2].
    destruct (run (List.filter is_evaluation cs) st1) as [rs' st2'].
    simpl in *. rewrite E. simpl. split; congruence.
  - destruct (invoke_query c st E) as [r ->].
    destruct (IH st) as [IH1 IH2].
    destruct (run cs st) as [rs st2]. simpl in *. rewrite E. auto.
Qed.

Lemma run_cons (c : request scalar) cs st :
  run (c :: cs) st =
    (fst (invoke c st) :: fst (run cs (snd (invoke c st))),
     snd (run cs (snd (invoke c st)))).
Proof.
  simpl. destruct (invoke c st) as [r st1]. simpl.
  destruct (run cs st1); reflexivity.
Qed.

Lemma invoke_evaluate_state x st :
  Z.of_nat (length x) = dimension (self st) ->
  snd (invoke (Evaluate x) st) =
    {| self := self st; arrays := arrays st;
       world := snd (obj_funct (self st) x (world st)) |}.
Proof.
  intros Hlen. unfold invoke. rewrite bind_ret_snd, evaluate_eq.
  apply Z.eqb_eq in Hlen. rewrite Hlen, call_eq. reflexivity.
Qed.

(** X9: [evaluate] calls the exact evaluator once per call, in the order
    of the calls, each time on the world the previous call left: after a
    sequence of [evaluate] calls at points of the right length the world
    is the evaluator's effect folded over the points, and there is one
    reply per call, whether or not some of them raised. *)
Theorem evaluations_thread_world (pts : list (list scalar)) st :
  Forall (fun x => Z.of_nat (length x) = dimension (self st)) pts ->
  world (snd (run (map Evaluate pts) st)) =
    fold_left (fun w x => snd (obj_funct (self st) x w)) pts (world st) /\
  length (fst (run (map Evaluate pts) st)) = length pts.
Proof.
  intros Hpts.
  assert (Hgen : forall st', self st' = self st ->
            world (snd (run (map Evaluate pts) st')) =
              fold_left (fun w x => snd (obj_funct (self st) x w)) pts
                (world st') /\
            length (fst (run (map Evaluate pts) st')) = length pts).
  { induction Hpts as [|x pts Hx _ IH]; intros st' Hself;
      [split; reflexivity|].
    change (map Evaluate (x :: pts)) with (Evaluate x :: map Evaluate pts).
    rewrite run_cons.
    rewrite invoke_evaluate_state by (rewrite Hself; exact Hx).
    rewrite Hself.
    destruct (IH {| self := self st; arrays := arrays st';
                    world := snd (obj_funct (self st) x (world st')) |}
                 eq_refl) as [IH1 IH2].
    simpl. split; [exact IH1 | now rewrite IH2]. }
  apply Hgen. reflexivity.
Qed.

(** ** The adapter behind the names of the base class *)

Lemma dispatch_with_fast (c : contract_call scalar) st g :
  dispatch c (with_fast g st) =
    (fst (dispatch c st), with_fast g (snd (dispatch c st))).
Proof.
  destruct c; try reflexivity.
  unfold dispatch, own_method, invoke, bind.
  rewrite !evaluate_eq. simpl.
  destruct (Z.of_nat (length x) =? dimension (self st)); [|reflexivity].
  rewrite !call_eq. simpl.
  destruct (obj_funct (self st) x (world st)) as [[v|e] w]; reflexivity.
Qed.

(** X10: [RbfoptUserBlackBox] defines [evaluate_fast] and
    [has_evaluate_fast] but no [evaluate_noisy] and no
    [has_evaluate_noisy], so under the names of the base class those two
    calls reach the base class bodies: they return [None] at every point
    and for every adapter, raise nothing and change nothing.  Hence no
    sequence of calls through the seven names of [RbfoptBlackBox] reaches
    the fast evaluator: the replies and the world are the same whichever
    fast evaluator the adapter holds. *)
Theorem contract_calls_ignore_fast_evaluator
    (cs : list (contract_call scalar)) st g x :
  (dispatch (CallEvaluateNoisy x) st = (Return None, st) /\
   dispatch CallHasEvaluateNoisy st = (Return None, st)) /\
  fst (contract_run cs (with_fast g st)) = fst (contract_run cs st) /\
  snd (contract_run cs (with_fast g st)) =
    with_fast g (snd (contract_run cs st)).
Proof.
  split; [split; reflexivity|].
  revert st. induction cs as [|c cs IH]; intros st; [split; reflexivity|].
  simpl. rewrite dispatch_with_fast.
  destruct (dispatch c st) as [r st1]. simpl.
  destruct (IH st1) as [IH1 IH2].
  destruct (contract_run cs (with_fast g st1)) as [rs' st2'].
  destruct (contract_run cs st1) as [rs st2]. simpl in *.
  split; congruence.
Qed.

End MoreProperties.

(** * The further properties on the sample problems *)

Import Cases.

(** The constructor takes lower bounds above the upper bounds and integer
    indices that are out of range and repeated: only the lengths count. *)
Lemma init_returns_iff_lengths_fit_witness :
  let fit := Z.of_nat (length [5; 5]) = 2 /\ Z.of_nat (length [1; 1]) = 2 /\
             Z.of_nat (length [7; 7]) <= 2 in
  (fit <->
   exists bb h',
     __init__ 2 1%positive 2%positive 3%positive stub_exact None heap_odd =
       (Return bb, h')) /\
  (~ fit <->
   __init__ 2 1%positive 2%positive 3%positive stub_exact None heap_odd =
     (Raise AssertionError, heap_odd)).
Proof.
  apply (init_returns_iff_lengths_fit Z result log 2 1%positive 2%positive
           3%positive stub_exact None heap_odd [5; 5] [1; 1] [7; 7]);
    reflexivity.
Defined.

Lemma init_allocates_three_arrays_witness :
  (forall a, a <> var_lower box0 -> a <> var_upper box0 ->
             a <> integer_vars box0 -> heap0_built !! a = heap0 !! a) /\
  (forall a, is_Some (heap0 !! a) -> heap0_built !! a = heap0 !! a) /\
  (heap0 !! var_lower box0 = None /\ heap0 !! var_upper box0 = None /\
   heap0 !! integer_vars box0 = None) /\
  (is_Some (heap0_built !! var_lower box0) /\
   is_Some (heap0_built !! var_upper box0) /\
   is_Some (heap0_built !! integer_vars box0)) /\
  (var_lower box0 <> var_upper box0 /\ var_lower box0 <> integer_vars box0 /\
   var_upper box0 <> integer_vars box0).
Proof.
  apply (init_allocates_three_arrays Z result log 0 1%positive 1%positive
           1%positive stub_exact None heap0 box0 heap0_built).
  reflexivity.
Defined.

Lemma lengths_hold_after_calls_witness :
  let st :=
    snd (run [Evaluate [3; 4]; GetVarLower; EvaluateFast [1]; Evaluate []]
           {| self := box 2 (Some stub_fast); arrays := heap2_built;
              world := [] |}) in
  exists a1 a2 a3 xs ys zs,
    (get_dimension st = (Return 2, st) /\ 0 <= 2) /\
    (get_var_lower st = (Return a1, st) /\
     get_var_upper st = (Return a2, st) /\
     get_integer_vars st = (Return a3, st)) /\
    (arrays st !! a1 = Some xs /\ arrays st !! a2 = Some ys /\
     arrays st !! a3 = Some zs) /\
    (Z.of_nat (length xs) = 2 /\ Z.of_nat (length ys) = 2 /\
     Z.of_nat (length zs) <= 2).
Proof.
  apply (lengths_hold_after_calls Z result log 2 1%positive 2%positive
           3%positive stub_exact (Some stub_fast) heap2).
  reflexivity.
Defined.

(** One list passed for all three arrays; the caller then writes into the
    array [get_var_lower] returned. *)
Lemma write_through_getter_witness :
  exists a1 a2 a3,
    get_var_lower {| self := box0; arrays := heap0_built;
                     world := ([] : log) |} =
      (Return a1, {| self := box0; arrays := heap0_built; world := [] |}) /\
    let st := {| self := box0; arrays := overwrite [(a1, [8; 9])] heap0_built;
                 world := ([] : log) |} in
    (get_var_lower st = (Return a1, st) /\
     get_var_upper st = (Return a2, st) /\
     get_integer_vars st = (Return a3, st)) /\
    arrays st !! a1 = Some [8; 9] /\
    (arrays st !! a2 = heap0 !! 1%positive /\
     arrays st !! a3 = heap0 !! 1%positive) /\
    (arrays st !! 1%positive = heap0 !! 1%positive /\
     arrays st !! 1%positive = heap0 !! 1%positive /\
     arrays st !! 1%positive = heap0 !! 1%positive).
Proof.
  apply (write_through_getter Z result log 0 1%positive 1%positive 1%positive
           stub_exact None heap0 box0 heap0_built [] [8; 9]).
  reflexivity.
Defined.

Lemma evaluate_fast_rejects_wrong_length_witness :
  evaluate_fast [3] (at_box 2 (Some stub_fast)) =
    (Raise AssertionError, at_box 2 (Some stub_fast)).
Proof.
  apply (evaluate_fast_rejects_wrong_length Z result log
           (at_box 2 (Some stub_fast)) [3]).
  discriminate.
Defined.


(** Three calls, each raising inside the callable: the log still holds
    the three points, last call first. *)
Lemma evaluations_thread_world_witness :
  world (snd (run (map Evaluate [[1; 2]; [3; 4]; [5; 6]])
                (state_with stub_raising None))) =
    fold_left (fun w x => snd (stub_raising x w)) [[1; 2]; [3; 4]; [5; 6]] [] /\
  length (fst (run (map Evaluate [[1; 2]; [3; 4]; [5; 6]])
                 (state_with stub_raising None))) = 3%nat.
Proof.
  apply (evaluations_thread_world Z result log [[1; 2]; [3; 4]; [5; 6]]
           (state_with stub_raising None)).
  repeat constructor.
Defined.

(** The same adapter over arrays that do not bound the point. *)
Lemma evaluation_ignores_arrays_witness :
  let st1 := at_box 2 (Some stub_fast) in
  let st2 := {| self := box 2 (Some stub_fast); arrays := heap_odd;
                world := [] |} in
  (fst (evaluate [100; 100] st1) = fst (evaluate [100; 100] st2) /\
   world (snd (evaluate [100; 100] st1)) =
     world (snd (evaluate [100; 100] st2))) /\
  (fst (evaluate_fast [100; 100] st1) = fst (evaluate_fast [100; 100] st2) /\
   world (snd (evaluate_fast [100; 100] st1)) =
     world (snd (evaluate_fast [100; 100] st2))).
Proof.
  apply (evaluation_ignores_arrays Z result log (at_box 2 (Some stub_fast))
           {| self := box 2 (Some stub_fast); arrays := heap_odd;
              world := [] |} [100; 100]); reflexivity.
Defined.

(** An adapter that holds a fast evaluator, asked through the names of
    the base class. *)
Example noisy_names_on_adapter_with_fast_evaluator :
  contract_run
    [CallHasEvaluateNoisy; CallEvaluateNoisy [3; 4]; CallEvaluateNoisy [];
     CallEvaluate [3; 4]; CallGetDimension]
    (at_box 2 (Some stub_fast)) =
    ([Return None; Return None; Return None;
      Return (Some (RValue (Num 42))); Return (Some (RInt 2))],
     {| self := box 2 (Some stub_fast); arrays := heap2_built;
        world := [[3; 4]] |}).
Proof. reflexivity. Qed.

(** The same adapter asked under the names it defines. *)
Example fast_names_on_adapter_with_fast_evaluator :
  fst (run [HasEvaluateFast; EvaluateFast [3; 4]; EvaluateFast []]
         (at_box 2 (Some stub_fast))) =
    [Return (RBool true); Return (RValue (Triple 7 1 (-1)));
     Raise AssertionError].
Proof. reflexivity. Qed.
